(** * The Validator filter of Easegress (pkg/filters/validator/validator.go)

    A shallow embedding of the filter that composes the header, JWT,
    signature, OAuth2 and basic-auth validators, and the properties of its
    configuration check, its request handling and its lifecycle. *)

From Stdlib Require Import ZArith.
From stdpp Require Import base option list strings gmap.

Local Open Scope string_scope.
Local Open Scope list_scope.
Local Open Scope Z_scope.

(** ** Go values used by the filter *)

(** A non-nil Go [error]; the filter only ever reads its message, through
    [err.Error()].  A nil error is [None] in [option error]. *)
Record error := mkError { Error : string }.

(** [fmt.Errorf] with a constant format string. *)
Definition fmt_Errorf (msg : string) : error := mkError msg.

(** net/http status codes used by the filter. *)
Definition http_StatusBadRequest : Z := 400.
Definition http_StatusUnauthorized : Z := 401.

(** [resultInvalid] of the source. *)
Definition resultInvalid : string := "invalid".

(** Modelled from the spec: [stringtool.Cat] lives in pkg/util/stringtool,
    outside this source file.  The diagnostic tag is described as
    "<scheme> validator: <underlying reason>", so [Cat] joins its two
    arguments in order. *)
Definition stringtool_Cat (a b : string) : string := a +:+ b.

(** The five validation schemes, in the order of the fields of [Spec]. *)
Inductive Scheme := Headers | JWT | Signature | OAuth2 | BasicAuth.

#[global] Instance Scheme_eq_dec : EqDecision Scheme.
Proof. solve_decision. Defined.

(** ** The packages the filter is built on

    Everything below is declared outside validator.go; the filter uses it
    through the operations listed here and nothing else. *)
Class Collaborators := {
  (* pkg/context *)
  Request : Type;
  Header : Type;
  StdRequest : Type;
  Request_Header : Request -> Header;
  Request_Std : Request -> StdRequest;
  (* pkg/filters and pkg/supervisor: the embedded BaseSpec, a comparable
     struct with the accessors Name() and Super() *)
  Supervisor : Type;
  BaseSpec : Type;
  BaseSpec_zero : BaseSpec;
  BaseSpec_eq_dec :: EqDecision BaseSpec;
  BaseSpec_Name : BaseSpec -> string;
  BaseSpec_Super : BaseSpec -> Supervisor;
  (* pkg/util/httpheader *)
  httpheader_ValidatorSpec : Type;
  httpheader_Validator : Type;
  httpheader_NewValidator : httpheader_ValidatorSpec -> httpheader_Validator;
  httpheader_Validate : httpheader_Validator -> Header -> option error;
  (* jwt.go *)
  JWTValidatorSpec : Type;
  JWTValidator : Type;
  NewJWTValidator : JWTValidatorSpec -> JWTValidator;
  JWTValidator_Validate : JWTValidator -> Request -> option error;
  (* pkg/util/signer *)
  signer_Spec : Type;
  signer_Signer : Type;
  signer_CreateFromSpec : signer_Spec -> signer_Signer;
  signer_Verify : signer_Signer -> StdRequest -> option error;
  (* oauth2.go *)
  OAuth2ValidatorSpec : Type;
  OAuth2Validator : Type;
  NewOAuth2Validator : OAuth2ValidatorSpec -> OAuth2Validator;
  OAuth2Validator_Validate : OAuth2Validator -> Request -> option error;
  (* basicauth.go: the credential check a BasicAuthValidator performs *)
  BasicAuthValidatorSpec : Type;
  BasicAuthUsers : Type;
  BasicAuth_users : BasicAuthValidatorSpec -> Supervisor -> BasicAuthUsers;
  BasicAuth_check : BasicAuthUsers -> Request -> option error
}.

(** ** Effects *)

(** *** Lifecycle: construction and release of validators *)

Inductive Event :=
| Constructed (s : Scheme)   (* a validator of scheme [s] was built *)
| Released (r : nat).        (* the resource with handle [r] was released *)

#[global] Instance Event_eq_dec : EqDecision Event.
Proof. solve_decision. Defined.

(** The resources held outside the filter: the handles of the resources
    currently held, the next free handle, and the lifecycle events so far. *)
Record World := mkWorld {
  next : nat;
  live : gset nat;
  history : list Event
}.

(** A lifecycle method runs on the world and either panics ([None]) or
    returns a value and the world it leaves. *)
Definition Life (A : Type) : Type := World -> option (A * World).

#[global] Instance Life_ret : MRet Life := fun A a w => Some (a, w).
#[global] Instance Life_bind : MBind Life := fun A B k m w =>
  match m w with
  | Some (a, w1) => k a w1
  | None => None
  end.

Definition panic {A} : Life A := fun _ => None.

Definition record (e : Event) : Life unit := fun w =>
  Some (tt, mkWorld (next w) (live w) (history w ++ [e])).

(** *** Request handling: what [handle] does besides returning *)

Inductive Effect :=
| Validate (s : Scheme)          (* the validator of scheme [s] was invoked *)
| SetStatusCode (status : Z)     (* ctx.Response().SetStatusCode(status) *)
| AddTag (tag : string).         (* ctx.AddTag(tag) *)

#[global] Instance Effect_eq_dec : EqDecision Effect.
Proof. solve_decision. Defined.

(** The body of a Go function that returns a [string]: a computation either
    has executed [return r] ([inl r]) or goes on with a value ([inr a]); in
    both cases it has performed the listed effects, oldest first. *)
Definition Fn (A : Type) : Type := (string + A) * list Effect.

#[global] Instance Fn_ret : MRet Fn := fun A a => (inr a, []).
#[global] Instance Fn_bind : MBind Fn := fun A B k m =>
  match m with
  | (inl r, l) => (inl r, l)
  | (inr a, l) => let '(x, l') := k a in (x, l ++ l')
  end.

(** [return r] *)
Definition return_ {A} (r : string) : Fn A := (inl r, []).

Definition perform (e : Effect) : Fn unit := (inr tt, [e]).

(** Calling a validator: the call is observed, its verdict is returned. *)
Definition call (s : Scheme) (verdict : option error) : Fn (option error) :=
  (inr verdict, [Validate s]).

(** The value a function body returns, with its effects. *)
Definition run (body : Fn string) : string * list Effect :=
  match body with
  | (inl r, l) => (r, l)
  | (inr r, l) => (r, l)
  end.

Section Validator.
Context {collab : Collaborators}.

(** ** Data *)

(** Modelled from the spec: [BasicAuthValidator] is declared in basicauth.go,
    outside this source file.  Of the five variants it is the one that "owns
    releasable resources (e.g., a background credential-store watcher) and
    must be explicitly released": a validator holds the handle of the
    resource acquired when it was built, and the credentials it checks. *)
Record BasicAuthValidator := mkBasicAuthValidator {
  ba_resource : nat;
  ba_users : BasicAuthUsers
}.

(** [Spec]: the embedded [filters.BaseSpec] and five optional sections,
    each a pointer that is nil when the scheme is not configured. *)
Record Spec := mkSpec {
  base : BaseSpec;
  spec_Headers : option httpheader_ValidatorSpec;
  spec_JWT : option JWTValidatorSpec;
  spec_Signature : option signer_Spec;
  spec_OAuth2 : option OAuth2ValidatorSpec;
  spec_BasicAuth : option BasicAuthValidatorSpec
}.

(** [Spec{}] *)
Definition Spec_zero : Spec := mkSpec BaseSpec_zero None None None None None.

(** [Validator] *)
Record Validator := mkValidator {
  spec : option Spec;
  headers : option httpheader_Validator;
  jwt : option JWTValidator;
  signer : option signer_Signer;
  oauth2 : option OAuth2Validator;
  basicAuth : option BasicAuthValidator
}.

(** [kind.CreateInstance]: [&Validator{}] *)
Definition CreateInstance : Validator := mkValidator None None None None None None.

(** ** Configuration check *)

(** [p == nil] for a pointer field. *)
Definition is_nil {A} (p : option A) : bool :=
  match p with None => true | Some _ => false end.

(** [spec == (Spec{})]: Go compares structs field by field, the embedded
    [BaseSpec] included; a pointer equals the nil pointer of [Spec{}] exactly
    when it is nil. *)
Definition Spec_eq_zero (s : Spec) : bool :=
  bool_decide (base s = BaseSpec_zero)
  && is_nil (spec_Headers s) && is_nil (spec_JWT s) && is_nil (spec_Signature s)
  && is_nil (spec_OAuth2 s) && is_nil (spec_BasicAuth s).

(** [Spec.Validate] *)
Definition Spec_Validate (s : Spec) : option error :=
  if Spec_eq_zero s
  then Some (fmt_Errorf "none of the validations are defined")
  else None.

(** ** Lifecycle *)

(** Modelled from the spec: [NewBasicAuthValidator] (basicauth.go) builds the
    validator and acquires its releasable resource, a fresh handle that is
    live from then on. *)
Definition NewBasicAuthValidator (s : BasicAuthValidatorSpec) (super : Supervisor)
  : Life BasicAuthValidator := fun w =>
  Some (mkBasicAuthValidator (next w) (BasicAuth_users s super),
        mkWorld (S (next w)) ({[next w]} ∪ live w) (history w)).

(** Modelled from the spec: [BasicAuthValidator.Close] (basicauth.go) releases
    the validator's resource: its handle is live no longer. *)
Definition BasicAuthValidator_Close (b : BasicAuthValidator) : Life unit := fun w =>
  Some (tt, mkWorld (next w) (live w ∖ {[ba_resource b]})
                    (history w ++ [Released (ba_resource b)])).

(** [BasicAuthValidator.Validate] *)
Definition BasicAuthValidator_Validate (b : BasicAuthValidator) (req : Request)
  : option error := BasicAuth_check (ba_users b) req.

(** [Validator.reload]; [v.spec] is dereferenced, which panics when nil.
    Here and below a method with a pointer receiver returns the receiver as
    the call leaves it. *)
Definition reload (v : Validator) : Life Validator :=
  match spec v with
  | None => panic
  | Some s =>
    v ← match spec_Headers s with
        | Some hs =>
          record (Constructed Headers);;
          mret (mkValidator (spec v) (Some (httpheader_NewValidator hs))
                            (jwt v) (signer v) (oauth2 v) (basicAuth v))
        | None => mret v
        end;
    v ← match spec_JWT s with
        | Some js =>
          record (Constructed JWT);;
          mret (mkValidator (spec v) (headers v) (Some (NewJWTValidator js))
                            (signer v) (oauth2 v) (basicAuth v))
        | None => mret v
        end;
    v ← match spec_Signature s with
        | Some ss =>
          record (Constructed Signature);;
          mret (mkValidator (spec v) (headers v) (jwt v)
                            (Some (signer_CreateFromSpec ss)) (oauth2 v) (basicAuth v))
        | None => mret v
        end;
    v ← match spec_OAuth2 s with
        | Some os =>
          record (Constructed OAuth2);;
          mret (mkValidator (spec v) (headers v) (jwt v) (signer v)
                            (Some (NewOAuth2Validator os)) (basicAuth v))
        | None => mret v
        end;
    match spec_BasicAuth s with
    | Some bs =>
      record (Constructed BasicAuth);;
      b ← NewBasicAuthValidator bs (BaseSpec_Super (base s));
      mret (mkValidator (spec v) (headers v) (jwt v) (signer v) (oauth2 v) (Some b))
    | None => mret v
    end
  end.

(** [Validator.Init] *)
Definition Init (v : Validator) (s : Spec) : Life Validator :=
  reload (mkValidator (Some s) (headers v) (jwt v) (signer v) (oauth2 v) (basicAuth v)).

(** [Validator.Close] *)
Definition Close (v : Validator) : Life Validator :=
  match basicAuth v with
  | Some b => BasicAuthValidator_Close b;; mret v
  | None => mret v
  end.

(** [Validator.Inherit] *)
Definition Inherit (v : Validator) (s : Spec) (previousGeneration : Validator)
  : Life Validator :=
  Close previousGeneration;;
  Init v s.

(** [Validator.Name]; [v.spec] is dereferenced. *)
Definition Name (v : Validator) : option string :=
  (fun s => BaseSpec_Name (base s)) <$> spec v.

(** ** Request handling *)

(** The closure [prepareErrorResponse] of [handle]. *)
Definition prepareErrorResponse (status : Z) (tagPrefix : string) (err : error)
  : Fn unit :=
  perform (SetStatusCode status);;
  perform (AddTag (stringtool_Cat tagPrefix (Error err))).

(** [Validator.handle] *)
Definition handle (v : Validator) (req : Request) : string * list Effect :=
  run (
    match headers v with
    | Some h =>
      err ← call Headers (httpheader_Validate h (Request_Header req));
      match err with
      | Some err =>
        prepareErrorResponse http_StatusBadRequest "header validator: " err;;
        return_ resultInvalid
      | None => mret tt
      end
    | None => mret tt
    end;;
    match jwt v with
    | Some j =>
      err ← call JWT (JWTValidator_Validate j req);
      match err with
      | Some err =>
        prepareErrorResponse http_StatusUnauthorized "JWT validator: " err;;
        return_ resultInvalid
      | None => mret tt
      end
    | None => mret tt
    end;;
    match signer v with
    | Some s =>
      err ← call Signature (signer_Verify s (Request_Std req));
      match err with
      | Some err =>
        prepareErrorResponse http_StatusUnauthorized "signature validator: " err;;
        return_ resultInvalid
      | None => mret tt
      end
    | None => mret tt
    end;;
    match oauth2 v with
    | Some o =>
      err ← call OAuth2 (OAuth2Validator_Validate o req);
      match err with
      | Some err =>
        prepareErrorResponse http_StatusUnauthorized "oauth2 validator: " err;;
        return_ resultInvalid
      | None => mret tt
      end
    | None => mret tt
    end;;
    match basicAuth v with
    | Some b =>
      err ← call BasicAuth (BasicAuthValidator_Validate b req);
      match err with
      | Some err =>
        prepareErrorResponse http_StatusUnauthorized "http basic validator: " err;;
        return_ resultInvalid
      | None => mret tt
      end
    | None => mret tt
    end;;
    mret "").

(** ** Reading the effects of [handle] *)

(** The schemes whose validator was invoked, in the order of the calls. *)
Definition calls (l : list Effect) : list Scheme :=
  omap (fun e => match e with Validate s => Some s | _ => None end) l.

(** What was done to the request context, in order. *)
Definition mutations (l : list Effect) : list Effect :=
  List.filter (fun e => match e with Validate _ => false | _ => true end) l.

(** The status codes set on the response. *)
Definition statuses (l : list Effect) : list Z :=
  omap (fun e => match e with SetStatusCode c => Some c | _ => None end) l.

(** The tags added to the context. *)
Definition tags (l : list Effect) : list string :=
  omap (fun e => match e with AddTag t => Some t | _ => None end) l.

(** ** The evaluation the specification describes *)

(** The fixed precedence order. *)
Definition precedence : list Scheme := [Headers; JWT; Signature; OAuth2; BasicAuth].

(** What the validator of scheme [s] says about [req]: [None] when [v] has
    no validator for [s], [Some None] when it accepts, [Some (Some e)] when
    it rejects with [e]. *)
Definition verdict (v : Validator) (req : Request) (s : Scheme)
  : option (option error) :=
  match s with
  | Headers => (fun h => httpheader_Validate h (Request_Header req)) <$> headers v
  | JWT => (fun j => JWTValidator_Validate j req) <$> jwt v
  | Signature => (fun g => signer_Verify g (Request_Std req)) <$> signer v
  | OAuth2 => (fun o => OAuth2Validator_Validate o req) <$> oauth2 v
  | BasicAuth => (fun b => BasicAuthValidator_Validate b req) <$> basicAuth v
  end.

(** Written from the specification's words: go through the schemes in
    order, skip the absent ones, stop at the first that rejects.  The result
    is the list of the schemes consulted and the rejection, if any. *)
Fixpoint spec_Evaluate (v : Validator) (req : Request) (ss : list Scheme)
  : list Scheme * option (Scheme * error) :=
  match ss with
  | [] => ([], None)
  | s :: ss =>
    match verdict v req s with
    | None => spec_Evaluate v req ss
    | Some (Some e) => ([s], Some (s, e))
    | Some None => let '(cs, r) := spec_Evaluate v req ss in (s :: cs, r)
    end
  end.

(** The scheme that rejects [req], and its reason. *)
Definition rejection (v : Validator) (req : Request) : option (Scheme * error) :=
  (spec_Evaluate v req precedence).2.

(** The status class of a scheme's rejection. *)
Definition status_of (s : Scheme) : Z :=
  match s with Headers => 400 | _ => 401 end.

(** The name a scheme goes by in a diagnostic tag. *)
Definition scheme_name (s : Scheme) : string :=
  match s with
  | Headers => "header"
  | JWT => "JWT"
  | Signature => "signature"
  | OAuth2 => "oauth2"
  | BasicAuth => "http basic"
  end.

(** ** Reading the lifecycle *)

(** The schemes a spec enables, in the order [reload] builds them. *)
Definition enabled (s : Spec) : list Scheme :=
  List.filter (fun k => match k with
                        | Headers => negb (is_nil (spec_Headers s))
                        | JWT => negb (is_nil (spec_JWT s))
                        | Signature => negb (is_nil (spec_Signature s))
                        | OAuth2 => negb (is_nil (spec_OAuth2 s))
                        | BasicAuth => negb (is_nil (spec_BasicAuth s))
                        end) precedence.

(** The handles of the releasable resources a generation holds. *)
Definition resources (v : Validator) : list nat :=
  match basicAuth v with
  | Some b => [ba_resource b]
  | None => []
  end.

(** Every release in a run of events comes after every construction in it. *)
Definition released_after_construction (h : list Event) : Prop :=
  forall i j r s,
    h !! i = Some (Released r) -> h !! j = Some (Constructed s) -> (j < i)%nat.

(** ** The filter as the pipeline sees it *)

(** [filters.Kind] (pkg/filters): the description under which a filter is
    registered. *)
Record filters_Kind := mkKind {
  kind_Name : string;
  kind_Description : string;
  kind_Results : list string;
  kind_DefaultSpec : unit -> Spec;
  kind_CreateInstance : unit -> Validator
}.

(** The constant [Kind]. *)
Definition Kind : string := "Validator".

(** The variable [kind]. *)
Definition kind : filters_Kind := {|
  kind_Name := Kind;
  kind_Description := "Validator validates HTTP request.";
  kind_Results := [resultInvalid];
  kind_DefaultSpec := fun _ => Spec_zero;
  kind_CreateInstance := fun _ => CreateInstance
|}.

(** [Validator.Kind] *)
Definition Validator_Kind (v : Validator) : filters_Kind := kind.

(** [Validator.Spec]: the pointer [v.spec], nil before [Init]. *)
Definition Validator_Spec (v : Validator) : option Spec := spec v.

(** [Validator.Status]: always nil. *)
Definition Status (v : Validator) : option unit := None.

(** [v] has a validator for scheme [k]: the field is not nil. *)
Definition has_validator (v : Validator) (k : Scheme) : bool :=
  match k with
  | Headers => negb (is_nil (headers v))
  | JWT => negb (is_nil (jwt v))
  | Signature => negb (is_nil (signer v))
  | OAuth2 => negb (is_nil (oauth2 v))
  | BasicAuth => negb (is_nil (basicAuth v))
  end.

(** The schemes [v] has a validator for, in precedence order. *)
Definition configured (v : Validator) : list Scheme :=
  List.filter (has_validator v) precedence.

(** No handle that is still to be given out is held. *)
Definition handles_fresh (w : World) : Prop :=
  forall r, r ∈ live w -> (r < next w)%nat.

End Validator.

(** ** Test doubles

    Concrete collaborators on which the filter can be run: a request is the
    list of the names of the headers it carries, and a validator is a rule
    over that list. *)
Module Mock.

Record Meta := mkMeta { meta_name : string; meta_kind : string }.

#[global] Instance Meta_eq_dec : EqDecision Meta.
Proof. solve_decision. Defined.

Definition Rule : Type := list string -> option error.

(** The rule that wants header [k] and otherwise rejects with [reason]. *)
Definition require (k reason : string) : Rule := fun hs =>
  if bool_decide (k ∈ hs) then None else Some (mkError reason).

Definition collaborators : Collaborators := {|
  Request := list string;
  Header := list string;
  StdRequest := list string;
  Request_Header := fun r => r;
  Request_Std := fun r => r;
  Supervisor := unit;
  BaseSpec := Meta;
  BaseSpec_zero := mkMeta "" "";
  BaseSpec_Name := meta_name;
  BaseSpec_Super := fun _ => tt;
  httpheader_ValidatorSpec := Rule;
  httpheader_Validator := Rule;
  httpheader_NewValidator := fun r => r;
  httpheader_Validate := fun r => r;
  JWTValidatorSpec := Rule;
  JWTValidator := Rule;
  NewJWTValidator := fun r => r;
  JWTValidator_Validate := fun r => r;
  signer_Spec := Rule;
  signer_Signer := Rule;
  signer_CreateFromSpec := fun r => r;
  signer_Verify := fun r => r;
  OAuth2ValidatorSpec := Rule;
  OAuth2Validator := Rule;
  NewOAuth2Validator := fun r => r;
  OAuth2Validator_Validate := fun r => r;
  BasicAuthValidatorSpec := Rule;
  BasicAuthUsers := Rule;
  BasicAuth_users := fun r _ => r;
  BasicAuth_check := fun r => r
|}.

Definition meta : Meta := mkMeta "validator" "Validator".

(** A filter named "validator" with no section at all. *)
Definition empty_spec : @Spec collaborators :=
  @mkSpec collaborators meta None None None None None.

(** [headers] only: the header X-Api-Key is required. *)
Definition headers_spec : @Spec collaborators :=
  @mkSpec collaborators meta
    (Some (require "X-Api-Key" "header X-Api-Key is missing")) None None None None.

(** [headers] and [jwt]. *)
Definition headers_jwt_spec : @Spec collaborators :=
  @mkSpec collaborators meta
    (Some (require "X-Api-Key" "header X-Api-Key is missing"))
    (Some (require "Authorization" "token is missing")) None None None.

(** [basicAuth] only. *)
Definition basic_spec : @Spec collaborators :=
  @mkSpec collaborators meta None None None None
    (Some (require "Authorization" "unauthorized")).

(** All five sections. *)
Definition full_spec : @Spec collaborators :=
  @mkSpec collaborators meta
    (Some (require "X-Api-Key" "header X-Api-Key is missing"))
    (Some (require "Authorization" "token is missing"))
    (Some (require "X-Signature" "signature is missing"))
    (Some (require "X-Token" "inactive token"))
    (Some (require "Authorization" "unauthorized")).

(** The world before anything was built. *)
Definition world0 : World := mkWorld 0 ∅ [].

(** The validator [Init] builds from a spec in [world0], with the world it
    leaves; a panic gives the instance back untouched. *)
Definition built (s : @Spec collaborators) : @Validator collaborators * World :=
  match @Init collaborators (@CreateInstance collaborators) s world0 with
  | Some r => r
  | None => (@CreateInstance collaborators, world0)
  end.

End Mock.


(** * Properties *)

Section Properties.
Context {collab : Collaborators}.

Implicit Types (v : Validator) (req : Request) (s : Scheme) (w : World).

(** ** Request handling *)

(** What [handle] returns and does is what the evaluation in precedence
    order gives: the validators consulted, then, on a rejection, the status
    of the rejecting scheme and its tag. *)
Lemma handle_unfold v req :
  handle v req =
    match spec_Evaluate v req precedence with
    | (cs, Some (s, e)) =>
      (resultInvalid,
       (Validate <$> cs) ++
       [SetStatusCode (status_of s);
        AddTag (scheme_name s +:+ " validator: " +:+ Error e)])
    | (cs, None) => ("", Validate <$> cs)
    end.
Proof.
  destruct v as [sp [h|] [j|] [g|] [o|] [b|]]; unfold handle; cbn;
    repeat match goal with
           | |- context [httpheader_Validate ?x ?y] => destruct (httpheader_Validate x y)
           | |- context [JWTValidator_Validate ?x ?y] => destruct (JWTValidator_Validate x y)
           | |- context [signer_Verify ?x ?y] => destruct (signer_Verify x y)
           | |- context [OAuth2Validator_Validate ?x ?y] => destruct (OAuth2Validator_Validate x y)
           | |- context [BasicAuthValidator_Validate ?x ?y] => destruct (BasicAuthValidator_Validate x y)
           end; reflexivity.
Qed.

Lemma calls_fmap_Validate (cs : list Scheme) : calls (Validate <$> cs) = cs.
Proof. induction cs as [|c cs IH]; cbn; [done | by f_equal]. Qed.

Lemma calls_app (l1 l2 : list Effect) : calls (l1 ++ l2) = calls l1 ++ calls l2.
Proof. unfold calls. apply omap_app. Qed.

Lemma mutations_fmap_Validate (cs : list Scheme) : mutations (Validate <$> cs) = [].
Proof. induction cs as [|c cs IH]; cbn; done. Qed.

Lemma statuses_fmap_Validate (cs : list Scheme) : statuses (Validate <$> cs) = [].
Proof. induction cs as [|c cs IH]; cbn; done. Qed.

Lemma tags_fmap_Validate (cs : list Scheme) : tags (Validate <$> cs) = [].
Proof. induction cs as [|c cs IH]; cbn; done. Qed.

(** The same as [handle_unfold], read through [rejection]. *)
Lemma handle_accepts v req :
  rejection v req = None ->
  handle v req = ("", Validate <$> (spec_Evaluate v req precedence).1).
Proof.
  unfold rejection. rewrite handle_unfold.
  destruct (spec_Evaluate v req precedence) as [cs [[s e]|]]; cbn; congruence.
Qed.

Lemma handle_rejects v req s e :
  rejection v req = Some (s, e) ->
  handle v req =
    (resultInvalid,
     (Validate <$> (spec_Evaluate v req precedence).1) ++
     [SetStatusCode (status_of s);
      AddTag (scheme_name s +:+ " validator: " +:+ Error e)]).
Proof.
  unfold rejection. rewrite handle_unfold.
  destruct (spec_Evaluate v req precedence) as [cs [[s' e']|]]; cbn; congruence.
Qed.

(** *** The evaluation in precedence order *)

(** The schemes consulted are taken from the list, in its order. *)
Lemma spec_Evaluate_sublist v req (ss : list Scheme) :
  (spec_Evaluate v req ss).1 `sublist_of` ss.
Proof.
  induction ss as [|s ss IH]; cbn; [constructor |].
  destruct (verdict v req s) as [[e|]|]; cbn.
  - apply sublist_skip, sublist_nil_l.
  - destruct (spec_Evaluate v req ss) as [cs r]; cbn in *. by apply sublist_skip.
  - by apply sublist_cons.
Qed.

(** Every scheme consulted has a validator. *)
Lemma spec_Evaluate_configured v req (ss : list Scheme) s :
  s ∈ (spec_Evaluate v req ss).1 -> is_Some (verdict v req s).
Proof.
  induction ss as [|k ss IH]; cbn; [by intros ?%elem_of_nil |].
  destruct (verdict v req k) as [[e|]|] eqn:E; cbn.
  - intros ->%list_elem_of_singleton. by rewrite E.
  - destruct (spec_Evaluate v req ss) as [cs r]; cbn in *.
    intros [->|?]%elem_of_cons; [by rewrite E | auto].
  - auto.
Qed.

(** A rejection comes from the scheme consulted last, and every scheme
    consulted before it accepted. *)
Lemma spec_Evaluate_rejection v req (ss : list Scheme) s e :
  (spec_Evaluate v req ss).2 = Some (s, e) ->
  verdict v req s = Some (Some e) /\
  exists cs, (spec_Evaluate v req ss).1 = cs ++ [s] /\
             forall k, k ∈ cs -> verdict v req k = Some None.
Proof.
  induction ss as [|k ss IH]; cbn; [done |].
  destruct (verdict v req k) as [[e'|]|] eqn:E; cbn.
  - intros [= -> ->]. split; [done |]. exists []. split; [done |].
    by intros ? ?%elem_of_nil.
  - destruct (spec_Evaluate v req ss) as [cs r]; cbn in *.
    intros Hr. destruct (IH Hr) as (Hv & cs' & -> & Hacc).
    split; [done |]. exists (k :: cs'). split; [done |].
    intros k' [->|?]%elem_of_cons; auto.
  - auto.
Qed.

(** Without a rejection every scheme of the list that has a validator was
    consulted and accepted. *)
Lemma spec_Evaluate_no_rejection v req (ss : list Scheme) :
  (spec_Evaluate v req ss).2 = None ->
  forall s, s ∈ ss -> is_Some (verdict v req s) ->
            verdict v req s = Some None /\ s ∈ (spec_Evaluate v req ss).1.
Proof.
  induction ss as [|k ss IH]; cbn; [by intros _ ? ?%elem_of_nil |].
  destruct (verdict v req k) as [[e'|]|] eqn:E; cbn; [done | |].
  - destruct (spec_Evaluate v req ss) as [cs r]; cbn in *.
    intros Hr s [->|Hin]%elem_of_cons Hs.
    + split; [done | left].
    + destruct (IH Hr s Hin Hs). split; [done | by right].
  - intros Hr s [->|Hin]%elem_of_cons Hs.
    + rewrite E in Hs. by destruct Hs.
    + by apply IH.
Qed.

Lemma elem_of_precedence s : s ∈ precedence.
Proof. destruct s; unfold precedence; set_solver. Qed.

(** There is no rejection exactly when no validator rejects. *)
Lemma rejection_None v req :
  rejection v req = None <-> forall s e, verdict v req s <> Some (Some e).
Proof.
  split.
  - intros Hr s e Hv.
    destruct (spec_Evaluate_no_rejection v req precedence Hr s) as [Hacc _];
      [apply elem_of_precedence | by rewrite Hv | congruence].
  - intros Hall. destruct (rejection v req) as [[s e]|] eqn:Hr; [| done].
    apply spec_Evaluate_rejection in Hr as [Hv _]. by destruct (Hall s e).
Qed.

(** C1: [handle] consults the configured validators in the fixed order
    Headers, JWT, Signature, OAuth2, BasicAuth and skips the schemes that
    have none; a validator that rejects is the last one consulted and
    [handle] then returns [resultInvalid]; without a rejection every
    configured validator is consulted. *)
Theorem handle_precedence_short_circuit v req :
  let cs := calls (handle v req).2 in
  cs = (spec_Evaluate v req precedence).1
  /\ cs `sublist_of` [Headers; JWT; Signature; OAuth2; BasicAuth]
  /\ (forall s, s ∈ cs -> is_Some (verdict v req s))
  /\ (forall s e, s ∈ cs -> verdict v req s = Some (Some e) ->
        (handle v req).1 = resultInvalid /\ last cs = Some s)
  /\ ((forall s e, verdict v req s <> Some (Some e)) ->
        forall s, is_Some (verdict v req s) -> s ∈ cs).
Proof.
  cbv zeta.
  assert (Hcs : calls (handle v req).2 = (spec_Evaluate v req precedence).1).
  { destruct (rejection v req) as [[s e]|] eqn:Hr.
    - rewrite (handle_rejects _ _ _ _ Hr); cbn [fst snd].
      rewrite calls_app, calls_fmap_Validate; cbn [fst snd]. apply app_nil_r.
    - rewrite (handle_accepts _ _ Hr); cbn [fst snd]. apply calls_fmap_Validate. }
  rewrite Hcs. split; [done |]. split; [apply spec_Evaluate_sublist |].
  split; [apply spec_Evaluate_configured |]. split.
  - intros s e Hin Hv. destruct (rejection v req) as [[s' e']|] eqn:Hr.
    + rewrite (handle_rejects _ _ _ _ Hr); cbn [fst snd]. split; [done |].
      destruct (spec_Evaluate_rejection _ _ _ _ _ Hr) as (_ & cs' & Hsplit & Hacc).
      rewrite Hsplit in Hin |- *. rewrite last_snoc.
      apply elem_of_app in Hin as [Hin | ->%list_elem_of_singleton]; [| done].
      apply Hacc in Hin. congruence.
    + destruct (spec_Evaluate_no_rejection v req precedence Hr s) as [Hacc _];
        [apply elem_of_precedence | by rewrite Hv | congruence].
  - intros Hall s Hs. apply rejection_None in Hall.
    by destruct (spec_Evaluate_no_rejection v req precedence Hall s
                   (elem_of_precedence s) Hs).
Qed.

(** C3: when a scheme rejects, its validator is the last one called and
    exactly one status code is set on the response: 400 (Bad Request) if
    the scheme is Headers, and 401 (Unauthorized) if it is JWT, Signature,
    OAuth2 or BasicAuth. *)
Theorem rejection_status v req s e :
  rejection v req = Some (s, e) ->
  last (calls (handle v req).2) = Some s
  /\ statuses (handle v req).2 =
       [match s with
        | Headers => http_StatusBadRequest
        | JWT | Signature | OAuth2 | BasicAuth => http_StatusUnauthorized
        end].
Proof.
  intros Hr. rewrite (handle_rejects _ _ _ _ Hr); cbn [fst snd]. split.
  - rewrite calls_app, calls_fmap_Validate, app_nil_r.
    destruct (spec_Evaluate_rejection _ _ _ _ _ Hr) as (_ & cs' & -> & _).
    apply last_snoc.
  - unfold statuses. rewrite omap_app.
    fold (statuses (Validate <$> (spec_Evaluate v req precedence).1)).
    rewrite statuses_fmap_Validate. by destruct s.
Qed.

(** C4: [handle] returns the empty result exactly when no configured
    validator returns an error, and [resultInvalid] exactly when one does;
    it returns in either case. *)
Theorem handle_pass_iff_all_accept v req :
  ((handle v req).1 = "" <-> forall s e, verdict v req s <> Some (Some e))
  /\ ((handle v req).1 = resultInvalid <-> exists s e, verdict v req s = Some (Some e)).
Proof.
  destruct (rejection v req) as [[s e]|] eqn:Hr.
  - rewrite (handle_rejects _ _ _ _ Hr); cbn [fst snd].
    apply spec_Evaluate_rejection in Hr as [Hv _]. split; split; try done.
    + intros Hall. by destruct (Hall s e).
    + eauto.
  - rewrite (handle_accepts _ _ Hr); cbn [fst snd].
    pose proof (proj1 (rejection_None v req) Hr) as Hall. split; split; try done.
    intros (s & e & Hv). by destruct (Hall s e).
Qed.

(** C6: when a scheme rejects, exactly one tag is added to the context: the
    name of the scheme, then " validator: ", then the reason the validator
    gave. *)
Theorem rejection_tag v req s e :
  rejection v req = Some (s, e) ->
  tags (handle v req).2 = [scheme_name s +:+ " validator: " +:+ Error e].
Proof.
  intros Hr. rewrite (handle_rejects _ _ _ _ Hr); cbn [fst snd].
  unfold tags. rewrite omap_app. fold (tags (Validate <$> (spec_Evaluate v req precedence).1)).
  by rewrite tags_fmap_Validate.
Qed.

(** C9: when every configured validator accepts, [handle] does nothing to
    the context; when a scheme rejects, it sets the status code and then
    adds the tag, and does nothing else to the context; so the context is
    touched only when the result is [resultInvalid]. *)
Theorem handle_context_frame v req :
  ((forall s e, verdict v req s <> Some (Some e)) -> mutations (handle v req).2 = [])
  /\ (forall s e, rejection v req = Some (s, e) ->
        mutations (handle v req).2 =
          [SetStatusCode (status_of s);
           AddTag (scheme_name s +:+ " validator: " +:+ Error e)])
  /\ (mutations (handle v req).2 <> [] -> (handle v req).1 = resultInvalid).
Proof.
  assert (Hrej : forall s e, rejection v req = Some (s, e) ->
            mutations (handle v req).2 =
              [SetStatusCode (status_of s);
               AddTag (scheme_name s +:+ " validator: " +:+ Error e)]).
  { intros s e Hr. rewrite (handle_rejects _ _ _ _ Hr); cbn [fst snd].
    unfold mutations. rewrite List.filter_app.
    fold (mutations (Validate <$> (spec_Evaluate v req precedence).1)).
    by rewrite mutations_fmap_Validate. }
  assert (Hacc : rejection v req = None -> mutations (handle v req).2 = []).
  { intros Hr. rewrite (handle_accepts _ _ Hr); cbn [fst snd]. apply mutations_fmap_Validate. }
  split; [| split].
  - intros Hall. by apply Hacc, rejection_None.
  - done.
  - intros Hne. destruct (rejection v req) as [[s e]|] eqn:Hr.
    + by rewrite (handle_rejects _ _ _ _ Hr).
    + by destruct Hne; apply Hacc.
Qed.

(** ** Configuration check *)

(** [Spec.Validate] fails on [Spec{}] and on nothing else. *)
Lemma Spec_Validate_error_iff (s : Spec) :
  is_Some (Spec_Validate s) <-> s = Spec_zero.
Proof.
  unfold Spec_Validate, Spec_eq_zero, Spec_zero.
  destruct s as [b [hs|] [js|] [gs|] [os|] [bs|]]; cbn;
    rewrite ?andb_false_r, ?andb_true_r; cbn;
    try (split; [intros [? [=]] | intros [=]]; fail).
  case_bool_decide as Hb; cbn.
  - subst. split; [done | by eexists].
  - split; [intros [? [=]] | intros [=]; done].
Qed.

(** A spec whose embedded [BaseSpec] is not the zero value passes
    [Spec.Validate], whatever its sections are. *)
Lemma Spec_Validate_nonzero_base (s : Spec) :
  base s <> BaseSpec_zero -> Spec_Validate s = None.
Proof.
  intros Hb. destruct (Spec_Validate s) as [e|] eqn:E; [| done].
  assert (Hz : s = Spec_zero) by (apply Spec_Validate_error_iff; by rewrite E).
  subst. by destruct Hb.
Qed.

(** X4: a spec that has at least one of the five sections passes
    [Spec.Validate]. *)
Lemma Spec_Validate_enabled (s : Spec) :
  enabled s <> [] -> Spec_Validate s = None.
Proof.
  intros Hen. destruct (Spec_Validate s) as [e|] eqn:E; [| done].
  assert (Hz : s = Spec_zero) by (apply Spec_Validate_error_iff; by rewrite E).
  subst. by destruct Hen.
Qed.

(** ** Lifecycle *)

(** [Init] always completes; it records one construction per enabled scheme,
    in precedence order, releases nothing, and acquires a resource exactly
    when basic auth is enabled. *)
Lemma Init_total v (s : Spec) w :
  exists v' w',
    Init v s w = Some (v', w')
    /\ spec v' = Some s
    /\ history w' = history w ++ (Constructed <$> enabled s)
    /\ live w' = (if is_nil (spec_BasicAuth s) then live w else {[next w]} ∪ live w)
    /\ (is_nil (spec_Headers s) = true -> headers v' = headers v)
    /\ (is_nil (spec_JWT s) = true -> jwt v' = jwt v)
    /\ (is_nil (spec_Signature s) = true -> signer v' = signer v)
    /\ (is_nil (spec_OAuth2 s) = true -> oauth2 v' = oauth2 v)
    /\ (is_nil (spec_BasicAuth s) = true -> basicAuth v' = basicAuth v).
Proof.
  destruct w as [n lv hist].
  destruct s as [b [hs|] [js|] [gs|] [os|] [bs|]];
    eexists _, _; (split; [reflexivity |]); cbn;
    rewrite <- ?(assoc_L (++)), ?app_nil_r; cbn; repeat split; by intros [=].
Qed.

(** [Close] always completes and gives the validator back as it was; the
    world changes by the release of the resources of [v]. *)
Lemma Close_unfold v w :
  Close v w =
    Some (v, mkWorld (next w) (live w ∖ list_to_set (resources v))
                     (history w ++ (Released <$> resources v)))
  /\ (basicAuth v = None -> Close v w = Some (v, w)).
Proof.
  destruct w as [n lv hist]. unfold Close, resources.
  destruct (basicAuth v) as [b|]; cbn.
  - split; [| done].
    replace (lv ∖ ({[ba_resource b]} ∪ ∅)) with (lv ∖ {[ba_resource b]})
      by set_solver.
    reflexivity.
  - rewrite app_nil_r. split; [| done].
    replace (lv ∖ ∅) with lv by set_solver. reflexivity.
Qed.

(** C5 (as amended): [Inherit] first closes the previous generation, which
    releases its resource if it holds one, and only then builds the
    validators of the new generation; it always completes, the resources of
    the previous generation are no longer held when the construction starts,
    and every release comes before every construction. *)
Theorem Inherit_closes_then_inits v (s : Spec) (prev : Validator) w :
  exists w1 v' w2,
    Close prev w = Some (prev, w1)
    /\ Init v s w1 = Some (v', w2)
    /\ Inherit v s prev w = Some (v', w2)
    /\ (forall r, r ∈ resources prev -> r ∉ live w1)
    /\ history w1 = history w ++ (Released <$> resources prev)
    /\ history w2 = history w1 ++ (Constructed <$> enabled s).
Proof.
  destruct (Close_unfold prev w) as [Hc _].
  set (w1 := mkWorld (next w) (live w ∖ list_to_set (resources prev))
                     (history w ++ (Released <$> resources prev))) in *.
  destruct (Init_total v s w1) as (v' & w2 & Hi & _ & Hh & _).
  exists w1, v', w2. repeat split; try done.
  - unfold Inherit, mbind, Life_bind. by rewrite Hc.
  - intros r Hr. subst w1; cbn. revert Hr. unfold resources.
    destruct (basicAuth prev); cbn; set_solver.
Qed.


(** C8: initialised from a spec without any of the five sections, a fresh
    validator passes every request: [Init] completes without consulting
    [Spec.Validate], and [handle] returns the empty result and neither calls
    a validator nor touches the context. *)
Theorem Init_no_scheme_passes_all (s : Spec) w req :
  spec_Headers s = None -> spec_JWT s = None -> spec_Signature s = None ->
  spec_OAuth2 s = None -> spec_BasicAuth s = None ->
  exists v, Init CreateInstance s w = Some (v, w) /\ handle v req = ("", []).
Proof.
  destruct s as [b hs js gs os bs]; cbn. intros -> -> -> -> ->.
  eexists. split; reflexivity.
Qed.

(** C10: [Close] completes and leaves every field of the validator as it
    was; without a basic-auth validator it changes nothing at all, and a
    resource that it releases is the one of the basic-auth validator. *)
Theorem Close_frame v w :
  exists v' w',
    Close v w = Some (v', w')
    /\ headers v' = headers v /\ jwt v' = jwt v /\ signer v' = signer v
    /\ oauth2 v' = oauth2 v /\ basicAuth v' = basicAuth v /\ spec v' = spec v
    /\ (basicAuth v = None -> w' = w)
    /\ (forall r, r ∈ live w -> r ∉ live w' ->
          exists b, basicAuth v = Some b /\ ba_resource b = r)
    /\ (forall r, r ∈ live w' -> r ∈ live w).
Proof.
  destruct (Close_unfold v w) as [Hc Hn].
  eexists v, _. split; [exact Hc |]. repeat split; cbn.
  - intros Hb. specialize (Hn Hb). congruence.
  - unfold resources. destruct (basicAuth v) as [b|]; cbn; [| set_solver].
    intros r Hin Hout. exists b. split; [done |].
    destruct (decide (ba_resource b = r)) as [|Hne]; [done |].
    destruct Hout. set_solver.
  - set_solver.
Qed.

End Properties.

(** * Initialisation, handling and release together *)

Section Composition.
Context {collab : Collaborators}.

Implicit Types (v : Validator) (req : Request) (k : Scheme) (w : World).

(** The validators [handle] calls are those the evaluation consults. *)
Lemma calls_handle v req :
  calls (handle v req).2 = (spec_Evaluate v req precedence).1.
Proof.
  destruct (rejection v req) as [[k e]|] eqn:Hr.
  - rewrite (handle_rejects _ _ _ _ Hr); cbn [fst snd].
    rewrite calls_app, calls_fmap_Validate. apply app_nil_r.
  - rewrite (handle_accepts _ _ Hr); cbn [fst snd]. apply calls_fmap_Validate.
Qed.

(** The result is empty exactly when there is no rejection. *)
Lemma handle_result_empty v req :
  (handle v req).1 = "" <-> rejection v req = None.
Proof.
  destruct (rejection v req) as [[k e]|] eqn:Hr.
  - rewrite (handle_rejects _ _ _ _ Hr); cbn [fst snd]. split; intros [=].
  - by rewrite (handle_accepts _ _ Hr).
Qed.

(** A scheme has a verdict exactly when its field is not nil. *)
Lemma verdict_is_Some v req k :
  is_Some (verdict v req k) <-> has_validator v k = true.
Proof.
  destruct v as [sp [h|] [j|] [g|] [o|] [b|]], k; cbn;
    (split; intros Hx; first [done | by eexists | by destruct Hx]).
Qed.

(** The schemes consulted are among those that have a validator, in the
    same order, and all of them when nothing rejects. *)
Lemma spec_Evaluate_within_configured v req (ss : list Scheme) :
  (spec_Evaluate v req ss).1 `sublist_of` List.filter (has_validator v) ss
  /\ ((spec_Evaluate v req ss).2 = None ->
      (spec_Evaluate v req ss).1 = List.filter (has_validator v) ss).
Proof.
  induction ss as [|k ss [IHs IHe]]; cbn [spec_Evaluate List.filter]; [done |].
  pose proof (verdict_is_Some v req k) as Hk.
  destruct (verdict v req k) as [[e|]|], (has_validator v k);
    try (by destruct Hk as [Hk _]; specialize (Hk ltac:(by eexists)));
    try (by destruct Hk as [_ Hk]; destruct (Hk eq_refl)).
  - cbn. split; [apply sublist_skip, sublist_nil_l | done].
  - destruct (spec_Evaluate v req ss) as [cs r]; cbn in *. split.
    + by apply sublist_skip.
    + intros Hr. by rewrite IHe.
  - done.
Qed.

(** [Init] on a fresh instance completes with a validator for exactly the
    sections of the spec. *)
Lemma Init_fresh_configured (s : Spec) w :
  exists v' w', Init CreateInstance s w = Some (v', w') /\ configured v' = enabled s.
Proof.
  destruct w as [n lv hist].
  destruct s as [b [hs|] [js|] [gs|] [os|] [bs|]];
    eexists _, _; (split; reflexivity).
Qed.

(** X1: initialised on a fresh instance, the filter holds a validator for
    exactly the sections that the spec has, each built from its section,
    and the validators were built in precedence order. *)
Theorem Init_fresh_builds_enabled (s : Spec) w :
  exists v' w',
    Init CreateInstance s w = Some (v', w')
    /\ configured v' = enabled s
    /\ headers v' = httpheader_NewValidator <$> spec_Headers s
    /\ jwt v' = NewJWTValidator <$> spec_JWT s
    /\ signer v' = signer_CreateFromSpec <$> spec_Signature s
    /\ oauth2 v' = NewOAuth2Validator <$> spec_OAuth2 s
    /\ ba_users <$> basicAuth v' =
         (fun bs => BasicAuth_users bs (BaseSpec_Super (base s))) <$> spec_BasicAuth s
    /\ history w' = history w ++ (Constructed <$> enabled s).
Proof.
  destruct w as [n lv hist].
  destruct s as [b [hs|] [js|] [gs|] [os|] [bs|]];
    eexists _, _; (split; [reflexivity |]); cbn;
    rewrite <- ?(assoc_L (++)), ?app_nil_r; done.
Qed.

(** X2: [Init] never takes a validator away: for a scheme whose section is
    nil in the new spec, the filter keeps the validator it had, so a request
    gets the verdict it got before. *)
Theorem Init_keeps_validators_of_absent_sections v (s : Spec) w k :
  k ∉ enabled s ->
  exists v' w',
    Init v s w = Some (v', w')
    /\ has_validator v' k = has_validator v k
    /\ forall req, verdict v' req k = verdict v req k.
Proof.
  destruct w as [n lv hist].
  destruct s as [b [hs|] [js|] [gs|] [os|] [bs|]], k; cbn; intros Hk;
    try (by destruct Hk; set_solver);
    eexists _, _; (split; [reflexivity |]); done.
Qed.

(** X3: a filter initialised on a fresh instance calls validators of
    sections of its spec only, in precedence order, and when it lets the
    request pass it has called the validator of every section. *)
Theorem Init_then_handle_consults_enabled (s : Spec) w req :
  exists v' w',
    Init CreateInstance s w = Some (v', w')
    /\ calls (handle v' req).2 `sublist_of` enabled s
    /\ ((handle v' req).1 = "" -> calls (handle v' req).2 = enabled s).
Proof.
  destruct (Init_fresh_configured s w) as (v' & w' & Hi & Hc).
  exists v', w'. split; [done |].
  rewrite calls_handle, <- Hc.
  destruct (spec_Evaluate_within_configured v' req precedence) as [Hs He].
  split; [done |]. intros Hr. by apply He, handle_result_empty.
Qed.

(** X6: whatever [handle] returns is the empty result or one of the
    results the filter declares in [kind]. *)
Theorem handle_result_declared v req :
  (handle v req).1 = "" \/ (handle v req).1 ∈ kind_Results (Validator_Kind v).
Proof.
  destruct (rejection v req) as [[k e]|] eqn:Hr.
  - right. rewrite (handle_rejects _ _ _ _ Hr); cbn. apply list_elem_of_singleton.
    reflexivity.
  - left. by rewrite (handle_accepts _ _ Hr).
Qed.

(** X8: before [Init] the filter has no spec, and asking for its name
    panics; after [Init] its spec is the one given and its name is the
    name that spec carries. *)
Theorem Name_after_Init v (s : Spec) w :
  Validator_Spec CreateInstance = None
  /\ Name CreateInstance = None
  /\ exists v' w',
       Init v s w = Some (v', w')
       /\ Validator_Spec v' = Some s
       /\ Name v' = Some (BaseSpec_Name (base s)).
Proof.
  split; [done |]. split; [done |].
  destruct (Init_total v s w) as (v' & w' & Hi & Hs & _).
  exists v', w'. split; [done |]. unfold Validator_Spec, Name. by rewrite Hs.
Qed.

(** X9: a fresh instance that inherits from a previous generation takes
    nothing from it: it has validators for the sections of the new spec
    only, and handles every request as an instance freshly initialised
    with that spec does. *)
Theorem Inherit_handles_as_fresh_Init (s : Spec) (prev : Validator) w :
  exists v0 w0 v' w',
    Init CreateInstance s w = Some (v0, w0)
    /\ Inherit CreateInstance s prev w = Some (v', w')
    /\ configured v' = enabled s
    /\ forall req, handle v' req = handle v0 req.
Proof.
  destruct w as [n lv hist].
  destruct prev as [sp ph pj pg po [pb|]];
    destruct s as [b [hs|] [js|] [gs|] [os|] [bs|]];
    eexists _, _, _, _; (split; [reflexivity |]); (split; [reflexivity |]);
    split; reflexivity.
Qed.

(** X10: [Close] undoes what [Init] acquired: after [Init] on a fresh
    instance and [Close], the resources held are those held before; the
    validator of basic auth is closed once if the spec has the section and
    nothing is closed otherwise. *)
Theorem Init_then_Close_releases_all (s : Spec) w :
  handles_fresh w ->
  exists v' w1 w2,
    Init CreateInstance s w = Some (v', w1)
    /\ Close v' w1 = Some (v', w2)
    /\ live w2 = live w
    /\ history w2 =
         history w ++ (Constructed <$> enabled s) ++ (Released <$> resources v')
    /\ length (resources v') = (if is_nil (spec_BasicAuth s) then 0 else 1)%nat.
Proof.
  intros Hfresh. destruct w as [n lv hist]. unfold handles_fresh in Hfresh; cbn in Hfresh.
  assert (Hn : n ∉ lv) by (intros Hin; apply Hfresh in Hin; lia).
  destruct s as [b [hs|] [js|] [gs|] [os|] [bs|]];
    eexists _, _, _; (split; [reflexivity |]); (split; [reflexivity |]); cbn;
    rewrite <- ?(assoc_L (++)), ?app_nil_r; (split; [set_solver | done]).
Qed.

End Composition.

(** * The filter on the test doubles *)

Local Abbreviation M := Mock.collaborators (only parsing).

(** Headers only: a request without the required header is rejected with
    400 and the header tag, a request that carries it passes. *)
Example headers_only_missing :
  @handle M (Mock.built Mock.headers_spec).1 [] =
    ("invalid",
     [Validate Headers; SetStatusCode 400;
      AddTag "header validator: header X-Api-Key is missing"]).
Proof. reflexivity. Qed.

Example headers_only_present :
  @handle M (Mock.built Mock.headers_spec).1 ["X-Api-Key"] = ("", [Validate Headers]).
Proof. reflexivity. Qed.

(** Headers and JWT: when the header check fails the JWT validator is not
    consulted. *)
Example headers_jwt_short_circuit :
  calls (@handle M (Mock.built Mock.headers_jwt_spec).1 ["Authorization"]).2 = [Headers].
Proof. reflexivity. Qed.

(** C2: a spec that carries the name and the kind of the filter and none of
    the five sections is not [Spec{}], so [Spec.Validate] returns nil for it,
    although no validation is defined; only [Spec{}] itself is refused. *)
Theorem Spec_Validate_accepts_named_empty_spec :
  @enabled M Mock.empty_spec = []
  /\ @Spec_Validate M Mock.empty_spec = None
  /\ @Spec_Validate M (@Spec_zero M) =
       Some (mkError "none of the validations are defined").
Proof. repeat split; reflexivity. Qed.

(** C5 (as stated, refuted): inheriting from a generation that holds a
    basic-auth resource, with a new spec that enables the header check,
    releases the resource first and builds the new validator afterwards. *)
Lemma Inherit_releases_before_constructing :
  exists v' w',
    @Inherit M (@CreateInstance M) Mock.headers_spec
      (Mock.built Mock.basic_spec).1 (Mock.built Mock.basic_spec).2 = Some (v', w')
    /\ history (Mock.built Mock.basic_spec).2 = [Constructed BasicAuth]
    /\ history w' = [Constructed BasicAuth; Released 0%nat; Constructed Headers]
    /\ ~ released_after_construction (drop 1 (history w')).
Proof.
  eexists _, _. split; [reflexivity |]. split; [reflexivity |].
  split; [reflexivity |].
  intros Hclaim. specialize (Hclaim 0%nat 1%nat 0%nat Headers eq_refl eq_refl). lia.
Qed.

(** The JWT validator rejects a request that passed the header check: the
    status is 401. *)
Lemma rejection_status_witness :
  @rejection M (Mock.built Mock.full_spec).1 ["X-Api-Key"]
    = Some (JWT, mkError "token is missing")
  /\ last (calls (@handle M (Mock.built Mock.full_spec).1 ["X-Api-Key"]).2) = Some JWT
  /\ statuses (@handle M (Mock.built Mock.full_spec).1 ["X-Api-Key"]).2 = [401].
Proof.
  split; [reflexivity |].
  apply (@rejection_status M _ ["X-Api-Key"] JWT (mkError "token is missing")).
  reflexivity.
Defined.

(** Basic auth only: the validator rejects a request without credentials,
    and the tag names the scheme "http basic". *)
Lemma rejection_tag_witness :
  @rejection M (Mock.built Mock.basic_spec).1 []
    = Some (BasicAuth, mkError "unauthorized")
  /\ tags (@handle M (Mock.built Mock.basic_spec).1 []).2
       = ["http basic validator: unauthorized"].
Proof.
  split; [reflexivity |].
  apply (@rejection_tag M _ _ BasicAuth (mkError "unauthorized")). reflexivity.
Defined.

(** The filter named "validator" without any section: [Init] completes and
    the validator passes a request that carries nothing. *)
Lemma Init_no_scheme_passes_all_witness :
  exists v,
    @Init M (@CreateInstance M) Mock.empty_spec Mock.world0 = Some (v, Mock.world0)
    /\ @handle M v [] = ("", []).
Proof.
  apply (@Init_no_scheme_passes_all M Mock.empty_spec Mock.world0 []); reflexivity.
Defined.

(** A filter that has a header validator is initialised again with a spec
    that has the basic-auth section only: the header validator stays. *)
Lemma Init_keeps_validators_of_absent_sections_witness :
  (Headers ∉ @enabled M Mock.basic_spec)
  /\ exists v' w',
       @Init M (Mock.built Mock.headers_spec).1 Mock.basic_spec
         (Mock.built Mock.headers_spec).2 = Some (v', w')
       /\ @has_validator M v' Headers
            = @has_validator M (Mock.built Mock.headers_spec).1 Headers
       /\ forall req, @verdict M v' req Headers
                      = @verdict M (Mock.built Mock.headers_spec).1 req Headers.
Proof.
  assert (Hk : Headers ∉ @enabled M Mock.basic_spec).
  { intros Hin. cbv in Hin. inversion Hin as [|? ? ? Hin']. inversion Hin'. }
  split; [exact Hk |].
  exact (@Init_keeps_validators_of_absent_sections M
           (Mock.built Mock.headers_spec).1 Mock.basic_spec
           (Mock.built Mock.headers_spec).2 Headers Hk).
Defined.

(** The spec with the header section only passes [Spec.Validate]. *)
Lemma Spec_Validate_enabled_witness :
  @enabled M Mock.headers_spec = [Headers]
  /\ @Spec_Validate M Mock.headers_spec = None.
Proof.
  split; [reflexivity |].
  apply (@Spec_Validate_enabled M Mock.headers_spec). discriminate.
Defined.

(** From the empty world: basic auth is set up and closed again. *)
Lemma Init_then_Close_releases_all_witness :
  handles_fresh Mock.world0
  /\ exists v' w1 w2,
       @Init M (@CreateInstance M) Mock.basic_spec Mock.world0 = Some (v', w1)
       /\ @Close M v' w1 = Some (v', w2)
       /\ live w2 = live Mock.world0
       /\ history w2 =
            history Mock.world0 ++ (Constructed <$> @enabled M Mock.basic_spec)
              ++ (Released <$> @resources M v')
       /\ length (@resources M v')
            = (if @is_nil (@BasicAuthValidatorSpec M) (@spec_BasicAuth M Mock.basic_spec)
               then 0 else 1)%nat.
Proof.
  assert (Hf : handles_fresh Mock.world0).
  { intros r Hr. cbn in Hr. by apply not_elem_of_empty in Hr. }
  split; [exact Hf |].
  exact (@Init_then_Close_releases_all M Mock.basic_spec Mock.world0 Hf).
Defined.

